(** * RawEdit: the raw file editing page

    A shallow embedding of [frontend/src/pages/RawEdit.tsx].  The page asks
    SWR for the list of files behind ["/api/files"] and renders, depending on
    what the hook hands back, an error message, a loading message, or a
    vertical tab view with one tab and one panel per file.

    The embedding follows the TypeScript source:
    - [error] has type [any]; the test [if (error)] is JavaScript's ToBoolean,
      modelled on a datatype of JavaScript values;
    - [data] has type [string[] | undefined]; an array is a mutable heap
      object, so [data] is a reference into a heap of string arrays, and the
      component is a state-passing computation over that heap;
    - [data.map(cb)] is [Array.prototype.map]: it reads the length once and
      then reads the elements one at a time from the live array, calling the
      callback (which may itself touch the heap) on each;
    - JSX expressions are React elements: a type, a property list and
      children, where a child may be text, an element or an array. *)

From Stdlib Require Import SpecFloat.
From stdpp Require Import gmap strings list.

Set Warnings "-register-all".

(** ** JavaScript values and truthiness *)

Module JS.

(** Values of type [any].  Numbers are IEEE 754 doubles; an object is
    represented by its own properties. *)
Inductive JsValue : Type :=
| JsUndefined
| JsNull
| JsBoolean (b : bool)
| JsNumber (x : spec_float)
| JsBigInt (z : Z)
| JsString (s : string)
| JsSymbol (description : string)
| JsObject (properties : list (string * JsValue)).

(** ECMAScript ToBoolean: [undefined], [null], [false], [+0], [-0], [NaN],
    [0n] and the empty string are falsy, everything else is truthy. *)
Definition ToBoolean (v : JsValue) : bool :=
  match v with
  | JsUndefined => false
  | JsNull => false
  | JsBoolean b => b
  | JsNumber (S754_zero _) => false
  | JsNumber S754_nan => false
  | JsNumber _ => true
  | JsBigInt z => negb (Z.eqb z 0)
  | JsString s => negb (String.eqb s "")
  | JsSymbol _ => true
  | JsObject _ => true
  end.

(** An [Error] instance as thrown by [fetch] or by [Response.json]: the
    constructor gives it [message] as its own property ([name] is inherited
    from the prototype). *)
Definition JsError (message : string) : JsValue :=
  JsObject [("message", JsString message)].

End JS.

(** ** The heap of string arrays and the state monad over it *)

Module Heap.

Abbreviation loc := positive (only parsing).

(** A [string[]] lives on the heap; a variable of that type holds its
    location. *)
Abbreviation heap := (gmap positive (list string)) (only parsing).

Definition M (A : Type) : Type := heap -> A * heap.

Definition ret {A : Type} (a : A) : M A := fun h => (a, h).

Definition bind {A B : Type} (m : M A) (k : A -> M B) : M B :=
  fun h => let (a, h') := m h in k a h'.

(** [O.length] *)
Definition array_length (O : loc) : M nat :=
  fun h => (match h !! O with Some a => length a | None => 0 end, h).

(** [O[k]], or nothing when [k] is not an index of [O]. *)
Definition array_get (O : loc) (k : nat) : M (option string) :=
  fun h => (match h !! O with Some a => a !! k | None => None end, h).

(** [O.push(v)]: appends [v] and returns the new length. *)
Definition array_push (O : loc) (v : string) : M nat :=
  fun h => (match h !! O with Some a => S (length a) | None => 0 end,
            alter (fun a => a ++ [v]) O h).

End Heap.

Declare Scope heap_scope.
Delimit Scope heap_scope with heap.
Notation "x <- m ;; k" := (Heap.bind m (fun x => k))
  (at level 100, m at next level, right associativity) : heap_scope.

(** ** React elements *)

Module JSX.

(** What stands in tag position: a host tag, the fragment [<>...</>], or
    one of the imported components. *)
Inductive ElementType : Type :=
| Host (tag : string)
| Fragment
| Container
| Tabs
| TabsList
| TabsTab
| TabsPanel
| SingleFileEdit.

#[export] Instance ElementType_eq_dec : EqDecision ElementType.
Proof. solve_decision. Defined.

Inductive PropValue : Type :=
| PString (s : string)
| PBool (b : bool).

(** A renderable node.  [NNothing] is a child that renders nothing
    ([undefined], a hole of an array). *)
Inductive Node : Type :=
| NText (s : string)
| NNothing
| NArray (items : list Node)
| NElement (type : ElementType) (props : list (string * PropValue))
           (children : list Node).

(** *** Observations on a rendered tree *)

(** All elements of type [t] below (and including) [n], in document
    order. *)
Fixpoint select (t : ElementType) (n : Node) : list Node :=
  match n with
  | NText _ => []
  | NNothing => []
  | NArray items => flat_map (select t) items
  | NElement t' _ children =>
      (if decide (t' = t) then [n] else []) ++ flat_map (select t) children
  end.

Definition tabs_of : Node -> list Node := select TabsTab.
Definition panels_of : Node -> list Node := select TabsPanel.

Fixpoint assoc (k : string) (ps : list (string * PropValue)) : option PropValue :=
  match ps with
  | [] => None
  | (k', v) :: ps' => if String.eqb k' k then Some v else assoc k ps'
  end.

(** The property [k] of an element. *)
Definition prop (k : string) (n : Node) : option PropValue :=
  match n with
  | NElement _ ps _ => assoc k ps
  | _ => None
  end.

Definition children_of (n : Node) : list Node :=
  match n with
  | NElement _ _ children => children
  | NArray items => items
  | _ => []
  end.

Definition type_of (n : Node) : option ElementType :=
  match n with
  | NElement t _ _ => Some t
  | _ => None
  end.

(** The text a node shows: its text leaves, concatenated. *)
Fixpoint text_content (n : Node) : string :=
  match n with
  | NText s => s
  | NNothing => ""
  | NArray items => fold_right (fun c acc => String.append (text_content c) acc) "" items
  | NElement _ _ children =>
      fold_right (fun c acc => String.append (text_content c) acc) "" children
  end.

End JSX.

(** ** Array.prototype.map *)

Module ArrayPrototype.
Import Heap JSX.
Local Open Scope heap_scope.

(** The loop of [Array.prototype.map] from index [k], with [n] indices
    left: a present element is passed to the callback, an absent one
    leaves a hole in the result. *)
Fixpoint map_from (O : loc) (callback : string -> M Node) (k n : nat)
  : M (list Node) :=
  match n with
  | 0 => ret []
  | S n' =>
      kValue <- array_get O k ;;
      mapped <- match kValue with
                | Some v => callback v
                | None => ret NNothing
                end ;;
      rest <- map_from O callback (S k) n' ;;
      ret (mapped :: rest)
  end.

(** [O.map(callback)]: the length is read once, before the loop. *)
Definition map (O : loc) (callback : string -> M Node) : M (list Node) :=
  len <- array_length O ;;
  map_from O callback 0 len.

End ArrayPrototype.

(** ** The component *)

Module Page.
Import JS Heap JSX.
Local Open Scope heap_scope.

(** What [useSWR<string[]>("/api/files", fetcher)] returns, as far as the
    component destructures it. *)
Record SWRResponse : Type := {
  data : option loc;      (* string[] | undefined *)
  error : JsValue         (* any *)
}.

(** [<div>failed to load</div>] *)
Definition ErrorMessage : Node :=
  NElement (Host "div") [] [NText "failed to load"].

(** [<>loading</>] *)
Definition LoadingMessage : Node :=
  NElement Fragment [] [NText "loading"].

(** [<Tabs.Tab value={entry}>{entry}</Tabs.Tab>] *)
Definition Tab (entry : string) : Node :=
  NElement TabsTab [("value", PString entry)] [NText entry].

(** [<Tabs.Panel value={entry} pt="xs">
       <SingleFileEdit name={entry} path={entry} />
     </Tabs.Panel>] *)
Definition Panel (entry : string) : Node :=
  NElement TabsPanel [("value", PString entry); ("pt", PString "xs")]
    [NElement SingleFileEdit
       [("name", PString entry); ("path", PString entry)] []].

(** [<Container fluid>
       <Tabs orientation="vertical">
         <Tabs.List>{tabs}</Tabs.List>
         {panels}
       </Tabs>
     </Container>] *)
Definition TabView (tabs panels : list Node) : Node :=
  NElement Container [("fluid", PBool true)]
    [NElement Tabs [("orientation", PString "vertical")]
       [NElement TabsList [] [NArray tabs];
        NArray panels]].

Definition RawEdit (swr : SWRResponse) : M Node :=
  if ToBoolean (error swr) then ret ErrorMessage
  else
    match data swr with
    | None => ret LoadingMessage          (* !data *)
    | Some data =>
        tabs <- ArrayPrototype.map data (fun entry => ret (Tab entry)) ;;
        panels <- ArrayPrototype.map data (fun entry => ret (Panel entry)) ;;
        ret (TabView tabs panels)
    end.

End Page.

Import JS Heap JSX Page.

(** ** Further observations on the page's tree *)

(** [<SingleFileEdit name={entry} path={entry} />], the child the source
    gives each panel. *)
Definition FileEditor (entry : string) : Node :=
  NElement SingleFileEdit [("name", PString entry); ("path", PString entry)] [].

Definition editors_of : Node -> list Node := select SingleFileEdit.

(** The strings of a list, joined without a separator. *)
Definition joined (l : list string) : string :=
  fold_right String.append "" l.

Example RawEdit_two_files :
  (RawEdit {| data := Some 1%positive; error := JsUndefined |}
           {[ 1%positive := ["a.txt"; "b.txt"] ]}).1
  = TabView [Tab "a.txt"; Tab "b.txt"] [Panel "a.txt"; Panel "b.txt"].
Proof. reflexivity. Qed.

(** A callback that writes to the array it is mapped over is visible in the
    heap afterwards: the model does not make arrays immutable.  The elements
    pushed during the loop are not visited, the length having been read
    before it. *)
Example map_with_writing_callback :
  ArrayPrototype.map 1%positive
    (fun v => Heap.bind (array_push 1%positive "x") (fun _ => ret (NText v)))
    {[ 1%positive := ["a"; "b"] ]}
  = ([NText "a"; NText "b"], {[ 1%positive := ["a"; "b"; "x"; "x"] ]}).
Proof. reflexivity. Qed.

(** A rejection value that is falsy does not pass [if (error)]. *)
Example RawEdit_falsy_error (h : heap) :
  RawEdit {| data := None; error := JsString "" |} h = (LoadingMessage, h).
Proof. reflexivity. Qed.

Example ToBoolean_Error_object :
  ToBoolean (JsError "Failed to fetch") = true.
Proof. reflexivity. Qed.

(** * Properties *)

(** ** Array.prototype.map with a callback that only builds a value *)

Section PureCallback.

Variable f : string -> Node.
Variable callback : string -> M Node.
Hypothesis callback_pure : forall v h, callback v h = (f v, h).

(** From index [length pre] on, the loop maps [f] over the rest of the array
    and hands the heap back as it found it. *)
Lemma map_from_pure (O : loc) (h : heap) (suf pre : list string) :
  h !! O = Some (pre ++ suf) ->
  ArrayPrototype.map_from O callback (length pre) (length suf) h
  = (f <$> suf, h).
Proof.
  revert pre. induction suf as [|v suf IH]; intros pre HO; [reflexivity|].
  cbn [length ArrayPrototype.map_from].
  unfold bind at 1. unfold array_get. rewrite HO.
  rewrite list_lookup_middle by reflexivity.
  unfold bind at 1. rewrite callback_pure.
  unfold bind at 1.
  replace (S (length pre)) with (length (pre ++ [v]))
    by (rewrite length_app; simpl; lia).
  rewrite IH by (rewrite <- app_assoc; exact HO).
  reflexivity.
Qed.

Lemma map_pure (O : loc) (h : heap) (a : list string) :
  h !! O = Some a ->
  ArrayPrototype.map O callback h = (f <$> a, h).
Proof.
  intros HO. unfold ArrayPrototype.map, bind, array_length. rewrite HO.
  exact (map_from_pure O h a [] HO).
Qed.

Lemma map_dangling (O : loc) (h : heap) :
  h !! O = None -> ArrayPrototype.map O callback h = ([], h).
Proof.
  intros HO. unfold ArrayPrototype.map, bind, array_length. rewrite HO.
  reflexivity.
Qed.

Lemma map_pure_heap (O : loc) (h : heap) :
  snd (ArrayPrototype.map O callback h) = h.
Proof.
  destruct (h !! O) as [a|] eqn:HO.
  - rewrite (map_pure O h a HO). reflexivity.
  - rewrite (map_dangling O h HO). reflexivity.
Qed.

End PureCallback.

(** ** Running the component *)

Lemma RawEdit_error (swr : SWRResponse) (h : heap) :
  ToBoolean (error swr) = true -> RawEdit swr h = (ErrorMessage, h).
Proof. intros He. unfold RawEdit. rewrite He. reflexivity. Qed.

Lemma RawEdit_loading (swr : SWRResponse) (h : heap) :
  ToBoolean (error swr) = false -> data swr = None ->
  RawEdit swr h = (LoadingMessage, h).
Proof. intros He Hd. unfold RawEdit. rewrite He, Hd. reflexivity. Qed.

Lemma RawEdit_loaded (swr : SWRResponse) (h : heap) (d : loc) (l : list string) :
  ToBoolean (error swr) = false -> data swr = Some d -> h !! d = Some l ->
  RawEdit swr h = (TabView (Tab <$> l) (Panel <$> l), h).
Proof.
  intros He Hd Hl. unfold RawEdit. rewrite He, Hd.
  unfold bind at 1.
  rewrite (map_pure Tab (fun entry => ret (Tab entry))
             (fun v h' => eq_refl) d h l Hl).
  unfold bind at 1.
  rewrite (map_pure Panel (fun entry => ret (Panel entry))
             (fun v h' => eq_refl) d h l Hl).
  reflexivity.
Qed.

Lemma RawEdit_heap (swr : SWRResponse) (h : heap) :
  snd (RawEdit swr h) = h.
Proof.
  unfold RawEdit.
  destruct (ToBoolean (error swr)); [reflexivity|].
  destruct (data swr) as [d|]; [|reflexivity].
  unfold bind at 1.
  pose proof (map_pure_heap Tab (fun entry => ret (Tab entry))
                (fun v h' => eq_refl) d h) as Ht.
  destruct (ArrayPrototype.map d (fun entry => ret (Tab entry)) h) as [ts h1].
  simpl in Ht. subst h1.
  unfold bind at 1.
  pose proof (map_pure_heap Panel (fun entry => ret (Panel entry))
                (fun v h' => eq_refl) d h) as Hp.
  destruct (ArrayPrototype.map d (fun entry => ret (Panel entry)) h) as [ps h2].
  simpl in Hp. subst h2. reflexivity.
Qed.

(** ** Tabs and panels of a tab view *)

Lemma select_Tab (t : ElementType) (e : string) :
  select t (Tab e) = if decide (TabsTab = t) then [Tab e] else [].
Proof. unfold Tab. cbn [select flat_map]. destruct (decide _); reflexivity. Qed.

Lemma select_Panel (t : ElementType) (e : string) :
  select t (Panel e)
  = (if decide (TabsPanel = t) then [Panel e] else [])
    ++ (if decide (SingleFileEdit = t)
        then [NElement SingleFileEdit
                [("name", PString e); ("path", PString e)] []]
        else []).
Proof.
  unfold Panel. cbn [select flat_map].
  repeat destruct (decide _); reflexivity.
Qed.

Lemma select_tabs_Tab (l : list string) :
  flat_map (select TabsTab) (Tab <$> l) = Tab <$> l.
Proof.
  induction l as [|e l IH]; [reflexivity|].
  rewrite fmap_cons. cbn [flat_map]. rewrite IH, select_Tab. reflexivity.
Qed.

Lemma select_panels_Tab (l : list string) :
  flat_map (select TabsPanel) (Tab <$> l) = [].
Proof.
  induction l as [|e l IH]; [reflexivity|].
  rewrite fmap_cons. cbn [flat_map]. rewrite IH, select_Tab. reflexivity.
Qed.

Lemma select_tabs_Panel (l : list string) :
  flat_map (select TabsTab) (Panel <$> l) = [].
Proof.
  induction l as [|e l IH]; [reflexivity|].
  rewrite fmap_cons. cbn [flat_map]. rewrite IH, select_Panel. reflexivity.
Qed.

Lemma select_panels_Panel (l : list string) :
  flat_map (select TabsPanel) (Panel <$> l) = Panel <$> l.
Proof.
  induction l as [|e l IH]; [reflexivity|].
  rewrite fmap_cons. cbn [flat_map]. rewrite IH, select_Panel. reflexivity.
Qed.

Lemma tabs_of_TabView (l : list string) :
  tabs_of (TabView (Tab <$> l) (Panel <$> l)) = Tab <$> l.
Proof.
  unfold tabs_of, TabView. cbn [select].
  repeat (destruct (decide _) as [Heq|_]; [discriminate Heq|]).
  cbn [flat_map select app].
  repeat (destruct (decide _) as [Heq|_]; [discriminate Heq|]).
  rewrite select_tabs_Tab, select_tabs_Panel.
  cbn [app]. rewrite !app_nil_r. reflexivity.
Qed.

Lemma panels_of_TabView (l : list string) :
  panels_of (TabView (Tab <$> l) (Panel <$> l)) = Panel <$> l.
Proof.
  unfold panels_of, TabView. cbn [select].
  repeat (destruct (decide _) as [Heq|_]; [discriminate Heq|]).
  cbn [flat_map select app].
  repeat (destruct (decide _) as [Heq|_]; [discriminate Heq|]).
  rewrite select_panels_Tab, select_panels_Panel.
  cbn [app]. rewrite !app_nil_r. reflexivity.
Qed.

Lemma append_empty_r (s : string) : String.append s "" = s.
Proof.
  induction s as [|c s IH]; [reflexivity|].
  change (String c (String.append s "") = String c s). rewrite IH. reflexivity.
Qed.

Lemma text_content_Tab (e : string) : text_content (Tab e) = e.
Proof. unfold Tab. cbn [text_content fold_right]. apply append_empty_r. Qed.

(** * The page's behaviour *)

(** C1.  After a successful fetch of a list of N file names, the page shows
    exactly N tabs and exactly N panels; the i-th tab has the i-th name as its
    value and as its label, and the i-th panel has the i-th name as its
    value. *)
Theorem RawEdit_one_tab_and_panel_per_name
    (swr : SWRResponse) (h : heap) (d : loc) (l : list string) :
  ToBoolean (error swr) = false ->
  data swr = Some d ->
  h !! d = Some l ->
  length (tabs_of (fst (RawEdit swr h))) = length l /\
  length (panels_of (fst (RawEdit swr h))) = length l /\
  forall (i : nat) (name : string),
    l !! i = Some name ->
    exists tab panel : Node,
      tabs_of (fst (RawEdit swr h)) !! i = Some tab /\
      panels_of (fst (RawEdit swr h)) !! i = Some panel /\
      type_of tab = Some TabsTab /\
      prop "value" tab = Some (PString name) /\
      text_content tab = name /\
      type_of panel = Some TabsPanel /\
      prop "value" panel = Some (PString name).
Proof.
  intros He Hd Hl. rewrite (RawEdit_loaded swr h d l He Hd Hl). cbn [fst].
  rewrite tabs_of_TabView, panels_of_TabView, !length_fmap.
  split; [reflexivity|]. split; [reflexivity|].
  intros i name Hi. exists (Tab name), (Panel name).
  rewrite !list_lookup_fmap, Hi. cbn [fmap option_fmap option_map].
  repeat split; try reflexivity.
  apply text_content_Tab.
Qed.

Lemma RawEdit_one_tab_and_panel_per_name_witness :
  length (tabs_of (fst (RawEdit {| data := Some 1%positive; error := JsUndefined |}
                          {[ 1%positive := ["a.txt"; "b.txt"] ]}))) = 2 /\
  length (panels_of (fst (RawEdit {| data := Some 1%positive; error := JsUndefined |}
                            {[ 1%positive := ["a.txt"; "b.txt"] ]}))) = 2.
Proof.
  pose proof (RawEdit_one_tab_and_panel_per_name
                {| data := Some 1%positive; error := JsUndefined |}
                {[ 1%positive := ["a.txt"; "b.txt"] ]} 1%positive
                ["a.txt"; "b.txt"] eq_refl eq_refl eq_refl) as [Ht [Hp _]].
  split; [exact Ht | exact Hp].
Defined.

(** C2, as the code has it.  When [error] is truthy, which is what
    [if (error)] tests and what every [Error] object is, the page shows the
    fixed error message, and neither tabs nor panels. *)
Theorem RawEdit_error_message (swr : SWRResponse) (h : heap) :
  ToBoolean (error swr) = true ->
  fst (RawEdit swr h) = ErrorMessage /\
  text_content (fst (RawEdit swr h)) = "failed to load" /\
  tabs_of (fst (RawEdit swr h)) = [] /\
  panels_of (fst (RawEdit swr h)) = [].
Proof.
  intros He. rewrite (RawEdit_error swr h He). cbn [fst].
  repeat split; reflexivity.
Qed.

Lemma RawEdit_error_message_witness :
  fst (RawEdit {| data := None; error := JsError "Failed to fetch" |} ∅)
  = ErrorMessage.
Proof.
  exact (proj1 (RawEdit_error_message
                  {| data := None; error := JsError "Failed to fetch" |}
                  ∅ eq_refl)).
Defined.

(** C2 fails for a failed fetch whose rejection value is falsy: with the
    empty string as [error] (and no data) the test [if (error)] does not
    pass and the page shows the loading message. *)
Lemma RawEdit_error_message_counterexample :
  error {| data := None; error := JsString "" |} <> JsUndefined /\
  fst (RawEdit {| data := None; error := JsString "" |} ∅) = LoadingMessage /\
  fst (RawEdit {| data := None; error := JsString "" |} ∅) <> ErrorMessage.
Proof. split; [discriminate|]. split; [reflexivity | discriminate]. Qed.

(** C3.  While the fetch is pending, with neither data nor error, the page
    shows the fixed loading message, and neither tabs nor panels. *)
Theorem RawEdit_loading_message (swr : SWRResponse) (h : heap) :
  data swr = None ->
  ToBoolean (error swr) = false ->
  fst (RawEdit swr h) = LoadingMessage /\
  text_content (fst (RawEdit swr h)) = "loading" /\
  tabs_of (fst (RawEdit swr h)) = [] /\
  panels_of (fst (RawEdit swr h)) = [].
Proof.
  intros Hd He. rewrite (RawEdit_loading swr h He Hd). cbn [fst].
  repeat split; reflexivity.
Qed.

Lemma RawEdit_loading_message_witness :
  fst (RawEdit {| data := None; error := JsUndefined |} ∅) = LoadingMessage.
Proof.
  exact (proj1 (RawEdit_loading_message
                  {| data := None; error := JsUndefined |} ∅ eq_refl eq_refl)).
Defined.

(** C4.  Whatever [data] and [error] are, the page returns one of exactly
    three things: the fixed error message, the fixed loading message, or the
    tab view built from the fetched list.  The three are told apart by their
    root element. *)
Theorem RawEdit_three_shapes (swr : SWRResponse) (h : heap) :
  (forall d : loc, data swr = Some d -> is_Some (h !! d)) ->
  (fst (RawEdit swr h) = ErrorMessage \/
   fst (RawEdit swr h) = LoadingMessage \/
   exists (d : loc) (l : list string),
     data swr = Some d /\ h !! d = Some l /\
     fst (RawEdit swr h) = TabView (Tab <$> l) (Panel <$> l)) /\
  ErrorMessage <> LoadingMessage /\
  (forall tabs panels : list Node, TabView tabs panels <> ErrorMessage) /\
  (forall tabs panels : list Node, TabView tabs panels <> LoadingMessage).
Proof.
  intros Hwf. split; [|repeat split; intros; discriminate].
  destruct (ToBoolean (error swr)) eqn:He.
  - left. rewrite (RawEdit_error swr h He). reflexivity.
  - right. destruct (data swr) as [d|] eqn:Hd.
    + right. destruct (Hwf d eq_refl) as [l Hl]. exists d, l.
      rewrite (RawEdit_loaded swr h d l He Hd Hl). auto.
    + left. rewrite (RawEdit_loading swr h He Hd). reflexivity.
Qed.

Lemma RawEdit_three_shapes_witness :
  fst (RawEdit {| data := Some 1%positive; error := JsNull |}
         {[ 1%positive := ["a.txt"] ]}) = ErrorMessage \/
  fst (RawEdit {| data := Some 1%positive; error := JsNull |}
         {[ 1%positive := ["a.txt"] ]}) = LoadingMessage \/
  exists (d : loc) (l : list string),
    Some 1%positive = Some d /\
    ({[ 1%positive := ["a.txt"] ]} : heap) !! d = Some l /\
    fst (RawEdit {| data := Some 1%positive; error := JsNull |}
           {[ 1%positive := ["a.txt"] ]}) = TabView (Tab <$> l) (Panel <$> l).
Proof.
  refine (proj1 (RawEdit_three_shapes
                   {| data := Some 1%positive; error := JsNull |}
                   {[ 1%positive := ["a.txt"] ]} _)).
  intros d Hd. injection Hd as <-. exists ["a.txt"]. reflexivity.
Defined.

(** C5.  After a successful fetch, the panel of every entry holds the
    single-file-edit widget, which receives the entry both as its [name] and
    as its [path]. *)
Theorem RawEdit_panel_delegates
    (swr : SWRResponse) (h : heap) (d : loc) (l : list string)
    (i : nat) (entry : string) :
  ToBoolean (error swr) = false ->
  data swr = Some d ->
  h !! d = Some l ->
  l !! i = Some entry ->
  exists panel widget : Node,
    panels_of (fst (RawEdit swr h)) !! i = Some panel /\
    prop "value" panel = Some (PString entry) /\
    children_of panel = [widget] /\
    type_of widget = Some SingleFileEdit /\
    prop "name" widget = Some (PString entry) /\
    prop "path" widget = Some (PString entry).
Proof.
  intros He Hd Hl Hi. rewrite (RawEdit_loaded swr h d l He Hd Hl). cbn [fst].
  rewrite panels_of_TabView, list_lookup_fmap, Hi.
  eexists. eexists. split; [reflexivity|]. unfold Panel.
  repeat split; reflexivity.
Qed.

Lemma RawEdit_panel_delegates_witness :
  exists panel widget : Node,
    panels_of (fst (RawEdit {| data := Some 1%positive; error := JsUndefined |}
                      {[ 1%positive := ["a.txt"; "b.txt"] ]})) !! 1
    = Some panel /\
    prop "value" panel = Some (PString "b.txt") /\
    children_of panel = [widget] /\
    type_of widget = Some SingleFileEdit /\
    prop "name" widget = Some (PString "b.txt") /\
    prop "path" widget = Some (PString "b.txt").
Proof.
  exact (RawEdit_panel_delegates
           {| data := Some 1%positive; error := JsUndefined |}
           {[ 1%positive := ["a.txt"; "b.txt"] ]} 1%positive
           ["a.txt"; "b.txt"] 1 "b.txt" eq_refl eq_refl eq_refl eq_refl).
Defined.

(** C6.  Rendering does not change the fetched list: the array that [data]
    refers to holds the same elements after the render as before it (and so
    does every other array). *)
Theorem RawEdit_leaves_list_unchanged
    (swr : SWRResponse) (h : heap) (d : loc) (l : list string) :
  data swr = Some d ->
  h !! d = Some l ->
  snd (RawEdit swr h) !! d = Some l /\
  snd (RawEdit swr h) = h.
Proof.
  intros _ Hl. pose proof (RawEdit_heap swr h) as Hh.
  split; [rewrite Hh; exact Hl | exact Hh].
Qed.

Lemma RawEdit_leaves_list_unchanged_witness :
  snd (RawEdit {| data := Some 1%positive; error := JsUndefined |}
         {[ 1%positive := ["a.txt"; "b.txt"] ]}) !! 1%positive
  = Some ["a.txt"; "b.txt"].
Proof.
  exact (proj1 (RawEdit_leaves_list_unchanged
                  {| data := Some 1%positive; error := JsUndefined |}
                  {[ 1%positive := ["a.txt"; "b.txt"] ]} 1%positive
                  ["a.txt"; "b.txt"] eq_refl eq_refl)).
Defined.

(** C7, as the code has it.  After a successful fetch, the values of the
    tabs, read in order, are the fetched list, and so are the values of the
    panels: tab and panel at the same position carry the same value, in the
    order of the list.  When the names are pairwise different, each tab
    corresponds to exactly one panel by value: the panel at its own position
    has its value, and no panel elsewhere has. *)
Theorem RawEdit_tab_and_panel_values
    (swr : SWRResponse) (h : heap) (d : loc) (l : list string) :
  ToBoolean (error swr) = false ->
  data swr = Some d ->
  h !! d = Some l ->
  prop "value" <$> tabs_of (fst (RawEdit swr h)) = (Some ∘ PString) <$> l /\
  prop "value" <$> panels_of (fst (RawEdit swr h)) = (Some ∘ PString) <$> l /\
  prop "value" <$> tabs_of (fst (RawEdit swr h))
  = prop "value" <$> panels_of (fst (RawEdit swr h)) /\
  (NoDup l ->
   forall (i : nat) (tab : Node),
     tabs_of (fst (RawEdit swr h)) !! i = Some tab ->
     (exists panel : Node,
        panels_of (fst (RawEdit swr h)) !! i = Some panel /\
        prop "value" panel = prop "value" tab) /\
     (forall (j : nat) (panel : Node),
        panels_of (fst (RawEdit swr h)) !! j = Some panel ->
        prop "value" panel = prop "value" tab ->
        j = i)).
Proof.
  intros He Hd Hl. rewrite (RawEdit_loaded swr h d l He Hd Hl). cbn [fst].
  rewrite tabs_of_TabView, panels_of_TabView, <- !list_fmap_compose.
  split; [reflexivity|]. split; [reflexivity|]. split; [reflexivity|].
  intros Hnd i tab Hi.
  rewrite list_lookup_fmap in Hi.
  destruct (l !! i) as [e|] eqn:Hli; [|discriminate Hi].
  injection Hi as <-. split.
  - exists (Panel e). rewrite list_lookup_fmap, Hli. split; reflexivity.
  - intros j panel Hj Hv.
    rewrite list_lookup_fmap in Hj.
    destruct (l !! j) as [e'|] eqn:Hlj; [|discriminate Hj].
    injection Hj as <-. injection Hv as ->.
    exact (NoDup_lookup l j i e Hnd Hlj Hli).
Qed.

Lemma RawEdit_tab_and_panel_values_witness :
  prop "value" <$> tabs_of (fst (RawEdit {| data := Some 1%positive; error := JsUndefined |}
                                    {[ 1%positive := ["a.txt"; "b.txt"] ]}))
  = [Some (PString "a.txt"); Some (PString "b.txt")] /\
  forall (j : nat) (panel : Node),
    panels_of (fst (RawEdit {| data := Some 1%positive; error := JsUndefined |}
                      {[ 1%positive := ["a.txt"; "b.txt"] ]})) !! j
    = Some panel ->
    prop "value" panel = prop "value" (Tab "b.txt") ->
    j = 1.
Proof.
  pose proof (RawEdit_tab_and_panel_values
                {| data := Some 1%positive; error := JsUndefined |}
                {[ 1%positive := ["a.txt"; "b.txt"] ]} 1%positive
                ["a.txt"; "b.txt"] eq_refl eq_refl eq_refl)
    as (Ht & _ & _ & Hone).
  split; [exact Ht|].
  assert (Hnd : NoDup ["a.txt"; "b.txt"]).
  { apply NoDup_cons. split.
    - intros Hin. apply list_elem_of_singleton in Hin. discriminate Hin.
    - apply NoDup_singleton. }
  exact (proj2 (Hone Hnd 1 (Tab "b.txt") eq_refl)).
Defined.

(** C7 fails for a list with a repeated name: for ["a.txt"; "a.txt"] the
    first tab has the value of two panels, the first and the second. *)
Lemma RawEdit_tab_and_panel_values_counterexample :
  exists tab panel0 panel1 : Node,
    tabs_of (fst (RawEdit {| data := Some 1%positive; error := JsUndefined |}
                    {[ 1%positive := ["a.txt"; "a.txt"] ]})) !! 0
    = Some tab /\
    panels_of (fst (RawEdit {| data := Some 1%positive; error := JsUndefined |}
                      {[ 1%positive := ["a.txt"; "a.txt"] ]})) !! 0
    = Some panel0 /\
    panels_of (fst (RawEdit {| data := Some 1%positive; error := JsUndefined |}
                      {[ 1%positive := ["a.txt"; "a.txt"] ]})) !! 1
    = Some panel1 /\
    prop "value" panel0 = prop "value" tab /\
    prop "value" panel1 = prop "value" tab.
Proof.
  exists (Tab "a.txt"), (Panel "a.txt"), (Panel "a.txt").
  repeat split; reflexivity.
Qed.

(** C8, as the code has it.  Among truthy error values the output does not
    depend on the error: two runs whose errors are both truthy render the
    same fixed message, whatever the two errors (and the rest of the two
    states) are. *)
Theorem RawEdit_error_noninterference
    (swr1 swr2 : SWRResponse) (h1 h2 : heap) :
  ToBoolean (error swr1) = true ->
  ToBoolean (error swr2) = true ->
  fst (RawEdit swr1 h1) = fst (RawEdit swr2 h2) /\
  fst (RawEdit swr1 h1) = ErrorMessage.
Proof.
  intros He1 He2.
  rewrite (RawEdit_error swr1 h1 He1), (RawEdit_error swr2 h2 He2).
  split; reflexivity.
Qed.

Lemma RawEdit_error_noninterference_witness :
  JsError "Failed to fetch"
  <> JsError "Unexpected token < in JSON at position 0" /\
  fst (RawEdit {| data := None;
                  error := JsError "Failed to fetch" |} ∅)
  = fst (RawEdit {| data := Some 1%positive;
                    error := JsError "Unexpected token < in JSON at position 0" |}
           {[ 1%positive := ["a.txt"] ]}).
Proof.
  split; [discriminate|].
  exact (proj1 (RawEdit_error_noninterference
                  {| data := None;
                     error := JsError "Failed to fetch" |}
                  {| data := Some 1%positive;
                     error := JsError "Unexpected token < in JSON at position 0" |}
                  ∅ {[ 1%positive := ["a.txt"] ]} eq_refl eq_refl)).
Defined.

(** C8 fails for two rejection values of which one is falsy: with the empty
    string the page shows the loading message, with a non-empty string the
    error message. *)
Lemma RawEdit_error_noninterference_counterexample :
  JsString "" <> JsString "boom" /\
  fst (RawEdit {| data := None; error := JsString "" |} ∅) = LoadingMessage /\
  fst (RawEdit {| data := None; error := JsString "boom" |} ∅) = ErrorMessage /\
  fst (RawEdit {| data := None; error := JsString "" |} ∅)
  <> fst (RawEdit {| data := None; error := JsString "boom" |} ∅).
Proof.
  split; [discriminate|]. split; [reflexivity|]. split; [reflexivity|].
  discriminate.
Qed.

(** C9.  A successful fetch of the empty list gives the tab view with no tab
    and no panel, not the loading message: an empty array is data. *)
Theorem RawEdit_empty_list (swr : SWRResponse) (h : heap) (d : loc) :
  ToBoolean (error swr) = false ->
  data swr = Some d ->
  h !! d = Some [] ->
  fst (RawEdit swr h) = TabView [] [] /\
  fst (RawEdit swr h) <> LoadingMessage /\
  type_of (fst (RawEdit swr h)) = Some Container /\
  tabs_of (fst (RawEdit swr h)) = [] /\
  panels_of (fst (RawEdit swr h)) = [].
Proof.
  intros He Hd Hl. rewrite (RawEdit_loaded swr h d [] He Hd Hl). cbn [fst].
  repeat split; try reflexivity. discriminate.
Qed.

Lemma RawEdit_empty_list_witness :
  fst (RawEdit {| data := Some 1%positive; error := JsUndefined |}
         {[ 1%positive := [] ]}) = TabView [] [].
Proof.
  exact (proj1 (RawEdit_empty_list
                  {| data := Some 1%positive; error := JsUndefined |}
                  {[ 1%positive := [] ]} 1%positive eq_refl eq_refl eq_refl)).
Defined.

(** C10, as the code has it.  When [error] is truthy while [data] still
    holds a list fetched earlier, the page shows the error message and not
    the tab view: the error test comes first. *)
Theorem RawEdit_error_before_data
    (swr : SWRResponse) (h : heap) (d : loc) (l : list string) :
  ToBoolean (error swr) = true ->
  data swr = Some d ->
  h !! d = Some l ->
  fst (RawEdit swr h) = ErrorMessage /\
  fst (RawEdit swr h) <> TabView (Tab <$> l) (Panel <$> l) /\
  tabs_of (fst (RawEdit swr h)) = [] /\
  panels_of (fst (RawEdit swr h)) = [].
Proof.
  intros He _ _. rewrite (RawEdit_error swr h He). cbn [fst].
  repeat split; try reflexivity. discriminate.
Qed.

Lemma RawEdit_error_before_data_witness :
  fst (RawEdit {| data := Some 1%positive;
                  error := JsError "Failed to fetch" |}
         {[ 1%positive := ["a.txt"; "b.txt"] ]}) = ErrorMessage.
Proof.
  exact (proj1 (RawEdit_error_before_data
                  {| data := Some 1%positive;
                     error := JsError "Failed to fetch" |}
                  {[ 1%positive := ["a.txt"; "b.txt"] ]} 1%positive
                  ["a.txt"; "b.txt"] eq_refl eq_refl eq_refl)).
Defined.

(** C10 fails when the error held beside the data is falsy: with [false] as
    [error] and a list fetched earlier, the page shows the tab view of that
    list. *)
Lemma RawEdit_error_before_data_counterexample :
  error {| data := Some 1%positive; error := JsBoolean false |} <> JsUndefined /\
  fst (RawEdit {| data := Some 1%positive; error := JsBoolean false |}
         {[ 1%positive := ["a.txt"] ]})
  = TabView [Tab "a.txt"] [Panel "a.txt"] /\
  fst (RawEdit {| data := Some 1%positive; error := JsBoolean false |}
         {[ 1%positive := ["a.txt"] ]})
  <> ErrorMessage.
Proof. split; [discriminate|]. split; [reflexivity | discriminate]. Qed.

(** * Further properties of the page *)

(** ** Helper lemmas *)

(** With a falsy error and [data] defined the page returns a tab view of
    whatever the array holds (nothing, should the reference dangle). *)
Lemma RawEdit_tab_view (swr : SWRResponse) (h : heap) (d : loc) :
  ToBoolean (error swr) = false -> data swr = Some d ->
  RawEdit swr h
  = (TabView (Tab <$> default [] (h !! d)) (Panel <$> default [] (h !! d)), h).
Proof.
  intros He Hd. destruct (h !! d) as [l|] eqn:Hl.
  - exact (RawEdit_loaded swr h d l He Hd Hl).
  - unfold RawEdit. rewrite He, Hd. unfold bind at 1.
    rewrite (map_dangling (fun entry => ret (Tab entry)) d h Hl).
    unfold bind at 1.
    rewrite (map_dangling (fun entry => ret (Panel entry)) d h Hl).
    reflexivity.
Qed.

Lemma Panel_FileEditor (e : string) :
  Panel e
  = NElement TabsPanel [("value", PString e); ("pt", PString "xs")] [FileEditor e].
Proof. reflexivity. Qed.

Lemma select_fmap_Tab (t : ElementType) (l : list string) :
  flat_map (select t) (Tab <$> l)
  = if decide (TabsTab = t) then Tab <$> l else [].
Proof.
  induction l as [|e l IH]; [destruct (decide _); reflexivity|].
  rewrite fmap_cons. cbn [flat_map]. rewrite IH, select_Tab.
  destruct (decide _); reflexivity.
Qed.

Lemma select_fmap_Panel (t : ElementType) (l : list string) :
  flat_map (select t) (Panel <$> l)
  = if decide (TabsPanel = t) then Panel <$> l
    else if decide (SingleFileEdit = t) then FileEditor <$> l else [].
Proof.
  induction l as [|e l IH]; [repeat destruct (decide _); reflexivity|].
  rewrite fmap_cons. cbn [flat_map]. rewrite IH, select_Panel.
  destruct (decide (TabsPanel = t)) as [Hp|Hp];
    destruct (decide (SingleFileEdit = t)) as [Hs|Hs]; try reflexivity.
  rewrite <- Hp in Hs. discriminate Hs.
Qed.

(** Every element of a tab view, by type. *)
Lemma select_TabView (t : ElementType) (l : list string) :
  select t (TabView (Tab <$> l) (Panel <$> l))
  = (if decide (Container = t) then [TabView (Tab <$> l) (Panel <$> l)] else [])
    ++ (if decide (Tabs = t)
        then [NElement Tabs [("orientation", PString "vertical")]
                [NElement TabsList [] [NArray (Tab <$> l)];
                 NArray (Panel <$> l)]]
        else [])
    ++ (if decide (TabsList = t)
        then [NElement TabsList [] [NArray (Tab <$> l)]] else [])
    ++ flat_map (select t) (Tab <$> l)
    ++ flat_map (select t) (Panel <$> l).
Proof.
  unfold TabView. cbn [select flat_map]. rewrite !app_nil_r.
  rewrite <- !app_assoc. reflexivity.
Qed.

Lemma editors_of_TabView (l : list string) :
  editors_of (TabView (Tab <$> l) (Panel <$> l)) = FileEditor <$> l.
Proof.
  unfold editors_of. rewrite select_TabView, select_fmap_Tab, select_fmap_Panel.
  repeat (destruct (decide _) as [Heq|_]; [discriminate Heq|]).
  destruct (decide _) as [_|Hne]; [reflexivity|]. contradiction Hne; reflexivity.
Qed.

Lemma text_content_Tabs (l : list string) :
  fold_right (fun c acc => String.append (text_content c) acc) "" (Tab <$> l)
  = joined l.
Proof.
  induction l as [|e l IH]; [reflexivity|].
  rewrite fmap_cons. cbn [fold_right]. rewrite IH, text_content_Tab.
  reflexivity.
Qed.

Lemma text_content_Panels (l : list string) :
  fold_right (fun c acc => String.append (text_content c) acc) "" (Panel <$> l)
  = "".
Proof.
  induction l as [|e l IH]; [reflexivity|].
  rewrite fmap_cons. cbn [fold_right]. rewrite IH. reflexivity.
Qed.

Lemma text_content_fmap_Tab (l : list string) :
  text_content <$> (Tab <$> l) = l.
Proof.
  induction l as [|e l IH]; [reflexivity|].
  rewrite !fmap_cons, IH, text_content_Tab. reflexivity.
Qed.

#[local] Instance PString_inj : Inj (=) (=) PString.
Proof. intros x y Hxy. injection Hxy as ->. reflexivity. Qed.

(** ** Which branch is taken *)

(** X1.  The error message is what the page returns exactly when [error] is
    truthy, whatever [data] is. *)
Theorem RawEdit_error_message_iff (swr : SWRResponse) (h : heap) :
  fst (RawEdit swr h) = ErrorMessage <-> ToBoolean (error swr) = true.
Proof.
  destruct (ToBoolean (error swr)) eqn:He.
  - rewrite (RawEdit_error swr h He). split; reflexivity.
  - destruct (data swr) as [d|] eqn:Hd.
    + rewrite (RawEdit_tab_view swr h d He Hd). cbn [fst].
      split; intros Hx; discriminate Hx.
    + rewrite (RawEdit_loading swr h He Hd). cbn [fst].
      split; intros Hx; discriminate Hx.
Qed.

(** X2.  The loading message is what the page returns exactly when [error]
    is falsy and [data] is undefined. *)
Theorem RawEdit_loading_message_iff (swr : SWRResponse) (h : heap) :
  fst (RawEdit swr h) = LoadingMessage
  <-> ToBoolean (error swr) = false /\ data swr = None.
Proof.
  destruct (ToBoolean (error swr)) eqn:He.
  - rewrite (RawEdit_error swr h He). cbn [fst].
    split; [intros Hx; discriminate Hx | intros [Hx _]; discriminate Hx].
  - destruct (data swr) as [d|] eqn:Hd.
    + rewrite (RawEdit_tab_view swr h d He Hd). cbn [fst].
      split; [intros Hx; discriminate Hx | intros [_ Hx]; discriminate Hx].
    + rewrite (RawEdit_loading swr h He Hd). cbn [fst].
      split; [split; reflexivity | reflexivity].
Qed.

(** X3.  The page returns a [Container] (the tab view) exactly when [error]
    is falsy and [data] is defined; an empty array counts as defined. *)
Theorem RawEdit_tab_view_iff (swr : SWRResponse) (h : heap) :
  type_of (fst (RawEdit swr h)) = Some Container
  <-> ToBoolean (error swr) = false /\ is_Some (data swr).
Proof.
  destruct (ToBoolean (error swr)) eqn:He.
  - rewrite (RawEdit_error swr h He). cbn [fst].
    split; [intros Hx; discriminate Hx | intros [Hx _]; discriminate Hx].
  - destruct (data swr) as [d|] eqn:Hd.
    + rewrite (RawEdit_tab_view swr h d He Hd). cbn [fst].
      split; [intros _; split; [reflexivity | exists d; reflexivity]
             | reflexivity].
    + rewrite (RawEdit_loading swr h He Hd). cbn [fst].
      split; [intros Hx; discriminate Hx
             | intros [_ [x Hx]]; discriminate Hx].
Qed.

(** X4.  Of [error] only its truthiness matters: two responses with the same
    [data] whose errors are both truthy or both falsy give the same tree and
    the same heap. *)
Theorem RawEdit_depends_on_error_truthiness
    (d : option loc) (e1 e2 : JsValue) (h : heap) :
  ToBoolean e1 = ToBoolean e2 ->
  RawEdit {| data := d; error := e1 |} h = RawEdit {| data := d; error := e2 |} h.
Proof. intros He. unfold RawEdit. cbn [error data]. rewrite He. reflexivity. Qed.

Lemma RawEdit_depends_on_error_truthiness_witness :
  RawEdit {| data := Some 1%positive; error := JsNull |}
    {[ 1%positive := ["a.txt"] ]}
  = RawEdit {| data := Some 1%positive; error := JsNumber S754_nan |}
      {[ 1%positive := ["a.txt"] ]}.
Proof.
  exact (RawEdit_depends_on_error_truthiness (Some 1%positive) JsNull
           (JsNumber S754_nan) {[ 1%positive := ["a.txt"] ]} eq_refl).
Defined.

(** ** The structure of the tab view *)

(** X5.  In the tab view there is one [Tabs] element, vertical, with two
    children: the one [Tabs.List], which holds all the tabs and no panel,
    followed by the panels. *)
Theorem RawEdit_tabs_inside_list
    (swr : SWRResponse) (h : heap) (d : loc) (l : list string) :
  ToBoolean (error swr) = false ->
  data swr = Some d ->
  h !! d = Some l ->
  exists tabs lst : Node,
    select Tabs (fst (RawEdit swr h)) = [tabs] /\
    select TabsList (fst (RawEdit swr h)) = [lst] /\
    prop "orientation" tabs = Some (PString "vertical") /\
    children_of tabs = [lst; NArray (panels_of (fst (RawEdit swr h)))] /\
    children_of lst = [NArray (tabs_of (fst (RawEdit swr h)))] /\
    panels_of lst = [] /\
    editors_of lst = [].
Proof.
  intros He Hd Hl. rewrite (RawEdit_loaded swr h d l He Hd Hl). cbn [fst].
  rewrite tabs_of_TabView, panels_of_TabView, !select_TabView.
  rewrite !select_fmap_Tab, !select_fmap_Panel.
  eexists. eexists.
  split; [reflexivity|]. split; [reflexivity|].
  split; [reflexivity|]. split; [reflexivity|]. split; [reflexivity|].
  unfold panels_of, editors_of. cbn [select flat_map].
  rewrite !select_fmap_Tab. split; reflexivity.
Qed.

Lemma RawEdit_tabs_inside_list_witness :
  exists tabs lst : Node,
    select Tabs (fst (RawEdit {| data := Some 1%positive; error := JsUndefined |}
                        {[ 1%positive := ["a.txt"; "b.txt"] ]})) = [tabs] /\
    children_of tabs = [lst; NArray [Panel "a.txt"; Panel "b.txt"]] /\
    children_of lst = [NArray [Tab "a.txt"; Tab "b.txt"]].
Proof.
  pose proof (RawEdit_tabs_inside_list
                {| data := Some 1%positive; error := JsUndefined |}
                {[ 1%positive := ["a.txt"; "b.txt"] ]} 1%positive
                ["a.txt"; "b.txt"] eq_refl eq_refl eq_refl)
    as (tabs & lst & H1 & _ & _ & H4 & H5 & _).
  exists tabs, lst. split; [exact H1|]. split; [exact H4 | exact H5].
Defined.

(** X6.  The tab view holds exactly one single-file-edit widget per entry of
    the list and no other: their [name]s, read in order, are the list, and so
    are their [path]s; none has children. *)
Theorem RawEdit_one_editor_per_entry
    (swr : SWRResponse) (h : heap) (d : loc) (l : list string) :
  ToBoolean (error swr) = false ->
  data swr = Some d ->
  h !! d = Some l ->
  length (editors_of (fst (RawEdit swr h))) = length l /\
  prop "name" <$> editors_of (fst (RawEdit swr h)) = (Some ∘ PString) <$> l /\
  prop "path" <$> editors_of (fst (RawEdit swr h)) = (Some ∘ PString) <$> l /\
  Forall (fun w => children_of w = []) (editors_of (fst (RawEdit swr h))).
Proof.
  intros He Hd Hl. rewrite (RawEdit_loaded swr h d l He Hd Hl). cbn [fst].
  rewrite editors_of_TabView, length_fmap, <- !list_fmap_compose.
  repeat split; try reflexivity.
  apply Forall_fmap, Forall_true. intros e. reflexivity.
Qed.

Lemma RawEdit_one_editor_per_entry_witness :
  prop "path" <$> editors_of
    (fst (RawEdit {| data := Some 1%positive; error := JsUndefined |}
            {[ 1%positive := ["a.txt"; "b.txt"] ]}))
  = [Some (PString "a.txt"); Some (PString "b.txt")].
Proof.
  exact (proj1 (proj2 (proj2 (RawEdit_one_editor_per_entry
           {| data := Some 1%positive; error := JsUndefined |}
           {[ 1%positive := ["a.txt"; "b.txt"] ]} 1%positive
           ["a.txt"; "b.txt"] eq_refl eq_refl eq_refl)))).
Defined.

(** X7.  No element the page returns has a [key]: in every state and for
    every element type, the elements of that type carry no such attribute
    (the callbacks of the two [map]s set none). *)
Theorem RawEdit_sets_no_key (swr : SWRResponse) (h : heap) (t : ElementType) :
  Forall (fun n => prop "key" n = None) (select t (fst (RawEdit swr h))).
Proof.
  destruct (ToBoolean (error swr)) eqn:He.
  - rewrite (RawEdit_error swr h He). cbn [fst]. unfold ErrorMessage.
    cbn [select flat_map]. destruct (decide _); repeat constructor.
  - destruct (data swr) as [d|] eqn:Hd.
    + rewrite (RawEdit_tab_view swr h d He Hd). cbn [fst].
      rewrite select_TabView, select_fmap_Tab, select_fmap_Panel.
      rewrite !Forall_app.
      repeat split; repeat (destruct (decide _));
        try apply Forall_nil_2; try solve [repeat constructor];
        apply Forall_fmap, Forall_true; intros entry; reflexivity.
    + rewrite (RawEdit_loading swr h He Hd). cbn [fst]. unfold LoadingMessage.
      cbn [select flat_map]. destruct (decide _); repeat constructor.
Qed.

(** X8.  The text the tab view itself shows is the file names joined in the
    order of the list: each tab contributes its name, the panels contribute
    nothing of their own. *)
Theorem RawEdit_tab_view_text
    (swr : SWRResponse) (h : heap) (d : loc) (l : list string) :
  ToBoolean (error swr) = false ->
  data swr = Some d ->
  h !! d = Some l ->
  text_content (fst (RawEdit swr h)) = joined l.
Proof.
  intros He Hd Hl. rewrite (RawEdit_loaded swr h d l He Hd Hl). cbn [fst].
  unfold TabView. cbn [text_content fold_right].
  rewrite text_content_Tabs, text_content_Panels.
  change (String.append "" "") with "".
  rewrite !append_empty_r. reflexivity.
Qed.

Lemma RawEdit_tab_view_text_witness :
  text_content (fst (RawEdit {| data := Some 1%positive; error := JsUndefined |}
                       {[ 1%positive := ["a.txt"; "b.txt"] ]}))
  = "a.txtb.txt".
Proof.
  exact (RawEdit_tab_view_text
           {| data := Some 1%positive; error := JsUndefined |}
           {[ 1%positive := ["a.txt"; "b.txt"] ]} 1%positive
           ["a.txt"; "b.txt"] eq_refl eq_refl eq_refl).
Defined.

(** X9.  The page neither removes nor merges repeated names: the tab values
    are pairwise different exactly when the fetched names are, and likewise
    the panel values. *)
Theorem RawEdit_unique_values
    (swr : SWRResponse) (h : heap) (d : loc) (l : list string) :
  ToBoolean (error swr) = false ->
  data swr = Some d ->
  h !! d = Some l ->
  (NoDup (prop "value" <$> tabs_of (fst (RawEdit swr h))) <-> NoDup l) /\
  (NoDup (prop "value" <$> panels_of (fst (RawEdit swr h))) <-> NoDup l).
Proof.
  intros He Hd Hl. rewrite (RawEdit_loaded swr h d l He Hd Hl). cbn [fst].
  rewrite tabs_of_TabView, panels_of_TabView, <- !list_fmap_compose.
  split.
  - change (prop "value" ∘ Tab) with (Some ∘ PString).
    apply (NoDup_fmap (Some ∘ PString)).
  - change (prop "value" ∘ Panel) with (Some ∘ PString).
    apply (NoDup_fmap (Some ∘ PString)).
Qed.

Lemma RawEdit_unique_values_witness :
  ~ NoDup (prop "value" <$> tabs_of
             (fst (RawEdit {| data := Some 1%positive; error := JsUndefined |}
                     {[ 1%positive := ["a.txt"; "a.txt"] ]}))).
Proof.
  pose proof (RawEdit_unique_values
                {| data := Some 1%positive; error := JsUndefined |}
                {[ 1%positive := ["a.txt"; "a.txt"] ]} 1%positive
                ["a.txt"; "a.txt"] eq_refl eq_refl eq_refl) as [[Hto _] _].
  intros Hnd. apply Hto in Hnd.
  apply NoDup_cons in Hnd as [Hin _]. apply Hin. left.
Defined.

(** ** What the tree depends on *)

(** X10.  The tree depends on the contents of the fetched array only: two
    responses whose arrays hold the same names give the same tree, wherever
    the arrays live and whatever else the two heaps hold. *)
Theorem RawEdit_depends_on_contents_only
    (swr1 swr2 : SWRResponse) (h1 h2 : heap) (d1 d2 : loc) (l : list string) :
  ToBoolean (error swr1) = false -> ToBoolean (error swr2) = false ->
  data swr1 = Some d1 -> data swr2 = Some d2 ->
  h1 !! d1 = Some l -> h2 !! d2 = Some l ->
  fst (RawEdit swr1 h1) = fst (RawEdit swr2 h2).
Proof.
  intros He1 He2 Hd1 Hd2 Hl1 Hl2.
  rewrite (RawEdit_loaded swr1 h1 d1 l He1 Hd1 Hl1).
  rewrite (RawEdit_loaded swr2 h2 d2 l He2 Hd2 Hl2). reflexivity.
Qed.

Lemma RawEdit_depends_on_contents_only_witness :
  fst (RawEdit {| data := Some 1%positive; error := JsUndefined |}
         {[ 1%positive := ["a.txt"] ]})
  = fst (RawEdit {| data := Some 2%positive; error := JsNull |}
           (<[ 1%positive := ["b.txt"] ]> {[ 2%positive := ["a.txt"] ]})).
Proof.
  exact (RawEdit_depends_on_contents_only
           {| data := Some 1%positive; error := JsUndefined |}
           {| data := Some 2%positive; error := JsNull |}
           {[ 1%positive := ["a.txt"] ]}
           (<[ 1%positive := ["b.txt"] ]> {[ 2%positive := ["a.txt"] ]})
           1%positive 2%positive ["a.txt"]
           eq_refl eq_refl eq_refl eq_refl eq_refl eq_refl).
Defined.

(** X11.  Different lists give different trees: from two equal tab views the
    two fetched lists are equal. *)
Theorem RawEdit_tab_view_injective
    (swr1 swr2 : SWRResponse) (h1 h2 : heap) (d1 d2 : loc)
    (l1 l2 : list string) :
  ToBoolean (error swr1) = false -> ToBoolean (error swr2) = false ->
  data swr1 = Some d1 -> data swr2 = Some d2 ->
  h1 !! d1 = Some l1 -> h2 !! d2 = Some l2 ->
  fst (RawEdit swr1 h1) = fst (RawEdit swr2 h2) ->
  l1 = l2.
Proof.
  intros He1 He2 Hd1 Hd2 Hl1 Hl2.
  rewrite (RawEdit_loaded swr1 h1 d1 l1 He1 Hd1 Hl1).
  rewrite (RawEdit_loaded swr2 h2 d2 l2 He2 Hd2 Hl2). cbn [fst].
  intros Heq. apply (f_equal tabs_of) in Heq.
  rewrite !tabs_of_TabView in Heq.
  apply (f_equal (fmap text_content)) in Heq.
  rewrite !text_content_fmap_Tab in Heq. exact Heq.
Qed.

Lemma RawEdit_tab_view_injective_witness :
  ["a.txt"] = ["a.txt"].
Proof.
  exact (RawEdit_tab_view_injective
           {| data := Some 1%positive; error := JsUndefined |}
           {| data := Some 2%positive; error := JsNull |}
           {[ 1%positive := ["a.txt"] ]}
           {[ 2%positive := ["a.txt"] ]}
           1%positive 2%positive ["a.txt"] ["a.txt"]
           eq_refl eq_refl eq_refl eq_refl eq_refl eq_refl eq_refl).
Defined.

(** X12.  Rendering again gives the same result: run in the heap a first
    render leaves behind, the page returns the same tree and the same heap
    as the first render did. *)
Theorem RawEdit_render_again (swr : SWRResponse) (h : heap) :
  RawEdit swr (snd (RawEdit swr h)) = RawEdit swr h.
Proof. rewrite RawEdit_heap. reflexivity. Qed.
